(** * Telemetry core of exo: MLX backend loader and metric polling loops

    Shallow embedding of
    - [src/exo/worker/engines/mlx/availability.py] ([_build_backend],
      [load_mlx_backend]);
    - [src/exo/worker/utils/profile.py] ([get_metrics_async],
      [_collect_generic_metrics], [get_memory_profile],
      [start_polling_memory_metrics], [start_polling_node_metrics]).

    Python floats are represented by exact rationals [Q]; no property
    below depends on rounding. Durations are integral milliseconds. *)

From Stdlib Require Import String Ascii List ZArith QArith Lia.
Import ListNotations.
Open Scope string_scope.
Open Scope list_scope.
Set Warnings "-abstract-large-number".

(** ** Python exceptions that occur in the two files *)

Inductive exn : Type :=
| MacMonError
| TimeoutError            (* asyncio.TimeoutError, an alias of TimeoutError *)
| ValueError
| AttributeError
| ImportError
| ModuleNotFoundError     (* subclass of ImportError *)
| NotImplementedError
| PsutilError             (* psutil.Error and its subclasses *)
| RuntimeError
| MlxUnavailableError.    (* class MlxUnavailableError(RuntimeError) *)

(** [isinstance(e, ImportError)] *)
Definition is_ImportError (e : exn) : bool :=
  match e with ImportError | ModuleNotFoundError => true | _ => false end.

(** [isinstance(e, MlxUnavailableError)] *)
Definition is_MlxUnavailableError (e : exn) : bool :=
  match e with MlxUnavailableError => true | _ => false end.

(** A call that returns a value or raises. *)
Inductive Result (A : Type) : Type :=
| Ok (a : A)
| Err (e : exn).
Arguments Ok {A} a.
Arguments Err {A} e.

(** [str.lower()] on ASCII text. *)
Definition lower_ascii (c : ascii) : ascii :=
  let n := nat_of_ascii c in
  if andb (Nat.leb 65 n) (Nat.leb n 90) then ascii_of_nat (n + 32) else c.

Fixpoint lower (s : string) : string :=
  match s with
  | EmptyString => EmptyString
  | String c s' => String (lower_ascii c) (lower s')
  end.

(** Log records emitted through loguru. *)
Inductive level : Type := WARNING | ERROR.

(** ** availability.py *)
Module Availability.

(** A module object: its attribute table (attribute name, object id). *)
Definition Module_ := list (string * nat).

Fixpoint getattr (m : Module_) (name : string) : Result nat :=
  match m with
  | [] => Err AttributeError
  | (k, v) :: m' => if String.eqb k name then Ok v else getattr m' name
  end.

(** The SimpleNamespace bundle of entry points; [oid] is its identity. *)
Record Backend : Type := mkBackend {
  oid : nat;
  initialize_mlx : nat;
  mlx_force_oom : nat;
  mlx_generate : nat;
  warmup_inference : nat
}.

(** What the process answers to [platform.system()] and to
    [importlib.import_module(name)]. *)
Record Env : Type := mkEnv {
  system : string;
  import_module : string -> Result Module_
}.

(** Observable actions of the loader. *)
Inductive Event : Type :=
| EvPlatformSystem
| EvImport (name : string)
| EvLog (lv : level) (msg : string).

(** Process state: the [_cached] function attribute, the next fresh
    object id, and the trace of actions. *)
Record LState : Type := mkLState {
  cached : option Backend;
  next_oid : nat;
  trace : list Event
}.

Definition emit (s : LState) (ev : Event) : LState :=
  mkLState (cached s) (next_oid s) (trace s ++ [ev]).

Definition generate_mod := "exo.worker.engines.mlx.generator.generate".
Definition utils_mlx_mod := "exo.worker.engines.mlx.utils_mlx".

(** [_build_backend()]; keyword arguments of [SimpleNamespace(...)] are
    evaluated left to right. Off macOS the error message calls
    [platform.system()] a second time. *)
Definition _build_backend (env : Env) (s : LState) : Result Backend * LState :=
  let s := emit s EvPlatformSystem in
  if negb (String.eqb (lower (system env)) "darwin") then
    (Err MlxUnavailableError, emit s EvPlatformSystem)
  else
    let s := emit s (EvImport generate_mod) in
    match import_module env generate_mod with
    | Err e => (if is_ImportError e then Err MlxUnavailableError else Err e, s)
    | Ok generate =>
      let s := emit s (EvImport utils_mlx_mod) in
      match import_module env utils_mlx_mod with
      | Err e => (if is_ImportError e then Err MlxUnavailableError else Err e, s)
      | Ok utils_mlx =>
        match getattr utils_mlx "initialize_mlx",
              getattr utils_mlx "mlx_force_oom",
              getattr generate "mlx_generate",
              getattr generate "warmup_inference" with
        | Ok a, Ok b, Ok c, Ok d =>
          (Ok (mkBackend (next_oid s) a b c d),
           mkLState (cached s) (S (next_oid s)) (trace s))
        | Err e, _, _, _ | Ok _, Err e, _, _
        | Ok _, Ok _, Err e, _ | Ok _, Ok _, Ok _, Err e => (Err e, s)
        end
      end
    end.

(** [load_mlx_backend()] *)
Definition load_mlx_backend (env : Env) (s : LState) : Result Backend * LState :=
  match cached s with
  | Some b => (Ok b, s)
  | None =>
    match _build_backend env s with
    | (Ok b, s') => (Ok b, mkLState (Some b) (next_oid s') (trace s'))
    | (Err e, s') =>
      if is_MlxUnavailableError e then
        (Err e, emit s' (EvLog WARNING "MLX backend unavailable on this platform."))
      else (Err e, s')
    end
  end.

(** A sequence of calls, each in the environment of its moment. *)
Fixpoint load_many (envs : list Env) (s : LState) : list (Result Backend) * LState :=
  match envs with
  | [] => ([], s)
  | env :: envs' =>
    let (r, s1) := load_mlx_backend env s in
    let (rs, s2) := load_many envs' s1 in
    (r :: rs, s2)
  end.

Definition warnings (tr : list Event) : nat :=
  length (filter (fun ev => match ev with EvLog WARNING _ => true | _ => false end) tr).

End Availability.

(** ** profile.py *)
Module Profile.

(** *** Data model *)

Record TempMetrics : Type := mkTemp {
  cpu_temp_avg : Q;
  gpu_temp_avg : Q
}.

Record Metrics : Type := mkMetrics {
  all_power : Q;
  ane_power : Q;
  cpu_power : Q;
  ecpu_usage : Z * Q;
  gpu_power : Q;
  gpu_ram_power : Q;
  gpu_usage : Z * Q;
  pcpu_usage : Z * Q;
  ram_power : Q;
  sys_power : Q;
  temp : TempMetrics;
  timestamp : string
}.

(** Modelled from the spec: [MemoryPerformanceProfile] and
    [MemoryPerformanceProfile.from_psutil] (exo.shared.types.profiling,
    not under src/). The host memory state is what psutil reports; an
    override byte count replaces the detected total wholesale. *)
Record HostMemory : Type := mkHost {
  host_total : Z;
  host_available : Z
}.

Record MemoryPerformanceProfile : Type := mkMemProfile {
  ram_total : Z;
  ram_available : Z
}.

(** Modelled from the spec: [MemoryPerformanceProfile.from_psutil]; an
    override given in bytes replaces the detected total. *)
Definition from_psutil (override_memory : option Z) (h : HostMemory)
  : MemoryPerformanceProfile :=
  mkMemProfile
    (match override_memory with Some b => b | None => host_total h end)
    (host_available h).

(** Modelled from the spec: [Memory.from_mb(n).in_bytes]
    (exo.shared.types.memory, not under src/); the spec calls the override
    a megabyte count, taken here as mebibytes. *)
Definition Memory_from_mb_in_bytes (n : Z) : Z := n * 1024 * 1024.

Record SystemPerformanceProfile : Type := mkSysProfile {
  sp_gpu_usage : Q;
  sp_temp : Q;
  sp_sys_power : Q;
  sp_pcpu_usage : Q;
  sp_ecpu_usage : Q;
  sp_ane_power : Q
}.

Record NodePerformanceProfile : Type := mkNodeProfile {
  model_id : string;
  chip_id : string;
  friendly_name : string;
  network_interfaces : list string;
  memory : MemoryPerformanceProfile;
  system_ : SystemPerformanceProfile
}.

(** *** Python's [int(s)] on ASCII text *)

Definition is_space (c : ascii) : bool :=
  let n := nat_of_ascii c in
  orb (Nat.eqb n 32) (andb (Nat.leb 9 n) (Nat.leb n 13)).

Definition digit (c : ascii) : option Z :=
  let n := nat_of_ascii c in
  if andb (Nat.leb 48 n) (Nat.leb n 57) then Some (Z.of_nat (n - 48)) else None.

Fixpoint strip_left (l : list ascii) : list ascii :=
  match l with
  | c :: l' => if is_space c then strip_left l' else l
  | [] => []
  end.

Definition strip (l : list ascii) : list ascii :=
  rev (strip_left (rev (strip_left l))).

(** Digits with single underscores between them, accumulated into [acc]. *)
Fixpoint digits_from (acc : Z) (l : list ascii) : option Z :=
  match l with
  | [] => Some acc
  | c :: l' =>
    match digit c with
    | Some d => digits_from (acc * 10 + d) l'
    | None =>
      if Ascii.eqb c "_" then
        match l' with
        | c' :: l'' =>
          match digit c' with
          | Some d => digits_from (acc * 10 + d) l''
          | None => None
          end
        | [] => None
        end
      else None
    end
  end.

Definition unsigned (l : list ascii) : option Z :=
  match l with
  | c :: l' => match digit c with Some d => digits_from d l' | None => None end
  | [] => None
  end.

Definition py_int (s : string) : Result Z :=
  let l := strip (list_ascii_of_string s) in
  let r :=
    match l with
    | "-"%char :: l' => option_map Z.opp (unsigned l')
    | "+"%char :: l' => unsigned l'
    | _ => unsigned l
    end in
  match r with Some n => Ok n | None => Err ValueError end.

(** [get_memory_profile()], given the value of [OVERRIDE_MEMORY_MB] in the
    process environment and the host reading taken by [from_psutil]. *)
Definition get_memory_profile (override_memory_env : option string)
           (host : Result HostMemory) : Result MemoryPerformanceProfile :=
  let override_memory :=
    match override_memory_env with
    | Some s => if String.eqb s "" then Ok None
                else match py_int s with
                     | Ok n => Ok (Some (Memory_from_mb_in_bytes n))
                     | Err e => Err e
                     end
    | None => Ok None
    end in
  match override_memory with
  | Err e => Err e
  | Ok ov => match host with
             | Ok h => Ok (from_psutil ov h)
             | Err e => Err e
             end
  end.

(** *** [_collect_generic_metrics()] *)

(** One [shwtemp] reading: its [current] field, possibly [None]. *)
Definition Reading := option Q.

(** What psutil answers on one call of the fallback sampler. *)
Record Psutil : Type := mkPsutil {
  cpu_percent : Q;
  cpu_count : option Z;
  sensors_temperatures : Result (list (string * list Reading))
}.

Definition py_sum (xs : list Q) : Q := fold_left Qplus xs 0.

Definition _collect_generic_metrics (ps : Psutil) : Result Metrics :=
  let cpu_percent := cpu_percent ps in
  let logical_cpus := match cpu_count ps with Some n => if Z.eqb n 0 then 0%Z else n
                                              | None => 0%Z end in
  let avg_temp :=
    match sensors_temperatures ps with
    | Ok temps =>
      let flat_temps :=
        flat_map (fun '(_, readings) =>
                    flat_map (fun r => match r with Some v => [v] | None => [] end)
                             readings) temps in
      Ok (match flat_temps with
          | [] => 0
          | _ => py_sum flat_temps / inject_Z (Z.of_nat (length flat_temps))
          end)
    | Err NotImplementedError | Err PsutilError => Ok 0
    | Err e => Err e
    end in
  match avg_temp with
  | Err e => Err e
  | Ok avg_temp =>
    Ok (mkMetrics 0 0 0 (0%Z, 0) 0 0 (0%Z, 0) (logical_cpus, cpu_percent) 0 0
                  (mkTemp avg_temp avg_temp) "")
  end.

(** *** Cooperative execution of the loops *)

(** One awaited or plain collaborator call: how long it takes and what it
    returns or raises. *)
Record Call (A : Type) : Type := mkCall {
  dur : nat;
  res : Result A
}.
Arguments mkCall {A} dur res.
Arguments dur {A} c.
Arguments res {A} c.

Inductive Event : Type :=
| EvSample                                (* await get_metrics_async() *)
| EvNetIf                                 (* get_network_interfaces() *)
| EvModelChip                             (* await get_model_and_chip() *)
| EvFriendly                              (* await get_friendly_name() *)
| EvMemProfile                            (* get_memory_profile() *)
| EvSinkMem (p : MemoryPerformanceProfile) (* await callback(mem) *)
| EvSinkNode (p : NodePerformanceProfile)  (* await callback(NodePerformanceProfile(...)) *)
| EvLog (lv : level) (msg : string)
| EvSleep (ms : nat).                     (* await anyio.sleep(...) *)

Record St : Type := mkSt {
  trace : list Event;
  clock : nat
}.

(** How a Python block ends: normally, by [return], or by raising. *)
Inductive Outcome (A : Type) : Type :=
| Normal (a : A)
| Returned
| Raised (e : exn).
Arguments Normal {A} a.
Arguments Returned {A}.
Arguments Raised {A} e.

Definition M (A : Type) : Type := St -> Outcome A * St.

Definition ret {A} (a : A) : M A := fun s => (Normal a, s).

Definition bind {A B} (m : M A) (f : A -> M B) : M B :=
  fun s => match m s with
           | (Normal a, s') => f a s'
           | (Returned, s') => (Returned, s')
           | (Raised e, s') => (Raised e, s')
           end.

Notation "x <- m ;; k" := (bind m (fun x => k))
  (at level 61, m at next level, right associativity).
Notation "m ;;; k" := (bind m (fun _ => k))
  (at level 61, right associativity).

Definition return_ : M unit := fun s => (Returned, s).

Definition step (ev : Event) (d : nat) (s : St) : St :=
  mkSt (trace s ++ [ev]) (clock s + d).

Definition call {A} (ev : Event) (c : Call A) : M A :=
  fun s => (match res c with Ok a => Normal a | Err e => Raised e end,
            step ev (dur c) s).

Definition log (lv : level) (msg : string) : M unit :=
  fun s => (Normal tt, step (EvLog lv msg) 0 s).

Definition sleep (ms : nat) : M unit :=
  fun s => (Normal tt, step (EvSleep ms) ms s).

(** [try: body except ...: handler finally: fin]; [handlers e] is the
    matching except clause, if any. *)
Definition try_except_finally (body : M unit) (handlers : exn -> option (M unit))
           (fin : M unit) : M unit :=
  fun s =>
    let finally_then (o : Outcome unit) (s1 : St) :=
      match fin s1 with
      | (Normal _, s2) => (o, s2)
      | (o', s2) => (o', s2)
      end in
    match body s with
    | (Raised e, s1) =>
      match handlers e with
      | Some h => let (o2, s2) := h s1 in finally_then o2 s2
      | None => finally_then (Raised e) s1
      end
    | (o, s1) => finally_then o s1
    end.

(** [while True: body], run for as many iterations as there are inputs: a
    [Normal] outcome means the loop is still running afterwards. *)
Fixpoint while_true {T} (ticks : list T) (body : T -> M unit) : M unit :=
  match ticks with
  | [] => ret tt
  | t :: ts => body t ;;; while_true ts body
  end.

(** *** The collaborators' answers on one iteration *)

Record MemTick : Type := mkMemTick {
  mt_env : option string;            (* os.getenv("OVERRIDE_MEMORY_MB") *)
  mt_host : Result HostMemory;       (* psutil reading in from_psutil *)
  mt_sink : Call unit                (* await callback(mem) *)
}.

Record NodeTick : Type := mkNodeTick {
  nt_macmon : Call (option Metrics); (* macmon_get_metrics_async() *)
  nt_psutil : Psutil;                (* psutil, in _collect_generic_metrics *)
  nt_thread_dur : nat;               (* anyio.to_thread.run_sync(...) *)
  nt_netif : Call (list string);
  nt_model_chip : Call (string * string);
  nt_friendly : Call string;
  nt_env : option string;
  nt_host : Result HostMemory;
  nt_sink : Call unit
}.

(** [await get_metrics_async()] on platform [plat]. *)
Definition sample_result (plat : string) (t : NodeTick) : Call (option Metrics) :=
  if String.eqb (lower plat) "darwin" then nt_macmon t
  else mkCall (nt_thread_dur t)
              (match _collect_generic_metrics (nt_psutil t) with
               | Ok m => Ok (Some m)
               | Err e => Err e
               end).

Definition get_metrics_async (plat : string) (t : NodeTick) : M (option Metrics) :=
  call EvSample (sample_result plat t).

Definition get_memory_profile_m (env : option string) (host : Result HostMemory)
  : M MemoryPerformanceProfile :=
  call EvMemProfile (mkCall 0 (get_memory_profile env host)).

(** *** [start_polling_memory_metrics] *)

Definition mem_poll_interval_ms : nat := 500.

Definition mem_try (t : MemTick) : M unit :=
  mem <- get_memory_profile_m (mt_env t) (mt_host t) ;;
  call (EvSinkMem mem) (mt_sink t).

Definition mem_handlers (e : exn) : option (M unit) :=
  match e with
  | MacMonError => Some (log ERROR "Memory Monitor encountered error")
  | _ => None
  end.

Definition mem_tick (t : MemTick) : M unit :=
  try_except_finally (mem_try t) mem_handlers (sleep mem_poll_interval_ms).

Definition start_polling_memory_metrics (ticks : list MemTick) : M unit :=
  while_true ticks mem_tick.

(** *** [start_polling_node_metrics] *)

Definition node_poll_interval_ms : nat := 1000.

Definition timeout_msg :=
  "[resource_monitor] Operation timed out after 30s, skipping this cycle.".

Definition node_try (plat : string) (t : NodeTick) : M unit :=
  metrics <- get_metrics_async plat t ;;
  match metrics with
  | None => return_
  | Some metrics =>
    network_interfaces <- call EvNetIf (nt_netif t) ;;
    mc <- call EvModelChip (nt_model_chip t) ;;
    let (model_id, chip_id) := mc in
    friendly_name <- call EvFriendly (nt_friendly t) ;;
    memory_profile <- get_memory_profile_m (nt_env t) (nt_host t) ;;
    call (EvSinkNode
            (mkNodeProfile model_id chip_id friendly_name network_interfaces
               memory_profile
               (mkSysProfile (snd (gpu_usage metrics)) (gpu_temp_avg (temp metrics))
                  (sys_power metrics) (snd (pcpu_usage metrics))
                  (snd (ecpu_usage metrics)) (ane_power metrics))))
         (nt_sink t)
  end.

Definition node_handlers (e : exn) : option (M unit) :=
  match e with
  | TimeoutError => Some (log WARNING timeout_msg)
  | MacMonError => Some (log ERROR "Resource Monitor encountered error")
  | _ => None
  end.

Definition node_tick (plat : string) (t : NodeTick) : M unit :=
  try_except_finally (node_try plat t) node_handlers (sleep node_poll_interval_ms).

Definition start_polling_node_metrics (plat : string) (ticks : list NodeTick) : M unit :=
  while_true ticks (node_tick plat).

(** *** Observations on traces *)

Definition count (p : Event -> bool) (tr : list Event) : nat := length (filter p tr).

Definition is_sleep (ev : Event) : bool :=
  match ev with EvSleep _ => true | _ => false end.
Definition is_error_log (ev : Event) : bool :=
  match ev with EvLog ERROR _ => true | _ => false end.
Definition is_log (ev : Event) : bool :=
  match ev with EvLog _ _ => true | _ => false end.
Definition is_node_sink (ev : Event) : bool :=
  match ev with EvSinkNode _ => true | _ => false end.

End Profile.

(** * Properties *)

Module AvailabilityProofs.
Import Availability.
Local Open Scope nat_scope.

(** Concrete processes used by the witnesses. *)
Definition mod_generate : Module_ := [("mlx_generate", 11); ("warmup_inference", 12)].
Definition mod_utils : Module_ := [("initialize_mlx", 21); ("mlx_force_oom", 22)].

Definition env_mac : Env :=
  mkEnv "Darwin" (fun name =>
    if String.eqb name generate_mod then Ok mod_generate
    else if String.eqb name utils_mlx_mod then Ok mod_utils
    else Err ModuleNotFoundError).

Definition env_linux : Env := mkEnv "Linux" (fun _ => Ok []).

Definition env_mac_no_mlx : Env :=
  mkEnv "Darwin" (fun name =>
    if String.eqb name generate_mod then Err ModuleNotFoundError else Ok []).

(** utils_mlx raises something other than ImportError while importing. *)
Definition env_mac_broken : Env :=
  mkEnv "Darwin" (fun name =>
    if String.eqb name generate_mod then Ok mod_generate else Err RuntimeError).

Definition s0 : LState := mkLState None 0 [].

Lemma load_many_cached (envs : list Env) (s : LState) (b : Backend) :
  cached s = Some b ->
  load_many envs s = (repeat (Ok b) (length envs), s).
Proof.
  intros Hc. induction envs as [|env envs IH]; simpl; [reflexivity|].
  unfold load_mlx_backend. rewrite Hc, IH. reflexivity.
Qed.

Definition platform_checks (tr : list Event) : nat :=
  length (filter (fun ev => match ev with EvPlatformSystem => true | _ => false end) tr).

Definition generate_imports (tr : list Event) : nat :=
  length (filter (fun ev => match ev with
                            | EvImport n => String.eqb n generate_mod
                            | _ => false
                            end) tr).

Definition non_darwin (env : Env) : bool :=
  negb (String.eqb (lower (system env)) "darwin").

Lemma getattr_attribute_error (m : Module_) (name : string) (e : exn) :
  getattr m name = Err e -> e = AttributeError.
Proof.
  induction m as [|[k v] m IH]; simpl; [congruence|].
  destruct (String.eqb k name); [discriminate | exact IH].
Qed.

(** On one uncached call: the platform is not macOS, or importing one of
    the MLX modules raises an [ImportError]. *)
Definition backend_unavailable (env : Env) : bool :=
  negb (String.eqb (lower (system env)) "darwin") ||
  match import_module env generate_mod with
  | Err e => is_ImportError e
  | Ok _ => match import_module env utils_mlx_mod with
            | Err e => is_ImportError e
            | Ok _ => false
            end
  end.

Lemma filter_app_length {A} (p : A -> bool) (l1 l2 : list A) :
  length (filter p (l1 ++ l2)) = length (filter p l1) + length (filter p l2).
Proof. rewrite filter_app, length_app. reflexivity. Qed.

Lemma load_unavailable_step (env : Env) (s : LState) :
  cached s = None -> backend_unavailable env = true ->
  load_mlx_backend env s =
    (Err MlxUnavailableError,
     mkLState None (next_oid s)
       (trace s ++ EvPlatformSystem ::
          (if String.eqb (lower (system env)) "darwin" then
             EvImport generate_mod ::
             match import_module env generate_mod with
             | Ok _ => [EvImport utils_mlx_mod]
             | Err _ => []
             end
           else [EvPlatformSystem]) ++
          [EvLog WARNING "MLX backend unavailable on this platform."])).
Proof.
  intros Hc Hu. unfold backend_unavailable in Hu.
  unfold load_mlx_backend, _build_backend, emit. rewrite Hc. simpl.
  destruct (String.eqb (lower (system env)) "darwin"); simpl in *.
  - destruct (import_module env generate_mod) as [g|e] eqn:Hg.
    + destruct (import_module env utils_mlx_mod) as [u|e] eqn:Hu'; [discriminate|].
      rewrite Hu. simpl. rewrite <- !app_assoc. reflexivity.
    + rewrite Hu. simpl. rewrite <- !app_assoc. reflexivity.
  - rewrite <- !app_assoc. reflexivity.
Qed.

(** C5: once a call has succeeded, this and every later call return the
    same backend object (same identity), and later calls change nothing:
    no platform check, no import, no log. *)
Theorem load_mlx_backend_success_cached (env : Env) (envs : list Env)
        (s : LState) (b : Backend) (s' : LState) :
  cached s = None ->
  load_mlx_backend env s = (Ok b, s') ->
  load_many (env :: envs) s = (Ok b :: repeat (Ok b) (length envs), s').
Proof.
  intros Hc Hl. simpl. rewrite Hl.
  assert (Hc' : cached s' = Some b).
  { unfold load_mlx_backend in Hl. rewrite Hc in Hl.
    destruct (_build_backend env s) as [[b0|e] s1].
    - inversion Hl; subst. reflexivity.
    - destruct (is_MlxUnavailableError e); discriminate. }
  rewrite (load_many_cached envs s' b Hc'). reflexivity.
Qed.

Lemma load_mlx_backend_success_cached_witness :
  load_many [env_mac; env_linux; env_mac_no_mlx] s0 =
    ([Ok (mkBackend 0 21 22 11 12); Ok (mkBackend 0 21 22 11 12);
      Ok (mkBackend 0 21 22 11 12)],
     mkLState (Some (mkBackend 0 21 22 11 12)) 1
       [EvPlatformSystem; EvImport generate_mod; EvImport utils_mlx_mod]).
Proof.
  apply (load_mlx_backend_success_cached env_mac [env_linux; env_mac_no_mlx] s0).
  - reflexivity.
  - vm_compute. reflexivity.
Defined.

(** C6 (as stated, fails): on macOS, when importing utils_mlx raises an
    exception that is not an ImportError, the call does not raise
    MlxUnavailableError and logs no warning. *)
Lemma load_mlx_backend_other_failure_unwrapped :
  fst (load_mlx_backend env_mac_broken s0) = Err RuntimeError /\
  warnings (trace (snd (load_mlx_backend env_mac_broken s0))) = 0 /\
  cached (snd (load_mlx_backend env_mac_broken s0)) = None.
Proof. vm_compute. repeat split. Qed.

(** C6 (amended): on a run of calls that each meet a non-macOS platform or
    an ImportError while importing the MLX modules, every call raises
    MlxUnavailableError, re-runs the platform check (twice off macOS, where
    the error message asks again) and, on macOS, the import of the generate
    module, logs exactly one warning, and nothing is cached. A call that
    fails in any other way raises, unchanged, the exception of the import
    or the AttributeError of a missing entry point, never an ImportError,
    caches nothing and, unless that exception is MlxUnavailableError
    itself, logs no warning. *)
Theorem load_mlx_backend_unavailable_every_call :
  (forall (envs : list Env) (s : LState),
   cached s = None ->
   forallb backend_unavailable envs = true ->
   let (rs, s') := load_many envs s in
   rs = repeat (Err MlxUnavailableError) (length envs) /\
   cached s' = None /\
   warnings (trace s') = warnings (trace s) + length envs /\
   platform_checks (trace s') =
     platform_checks (trace s) + length envs + length (filter non_darwin envs) /\
   generate_imports (trace s') =
     generate_imports (trace s) + length (filter (fun env => negb (non_darwin env)) envs)) /\
  (forall (env : Env) (s s' : LState) (e : exn),
   cached s = None ->
   backend_unavailable env = false ->
   load_mlx_backend env s = (Err e, s') ->
   (import_module env generate_mod = Err e \/
    (exists g, import_module env generate_mod = Ok g /\
               import_module env utils_mlx_mod = Err e) \/
    (exists g u, import_module env generate_mod = Ok g /\
                 import_module env utils_mlx_mod = Ok u /\ e = AttributeError)) /\
   is_ImportError e = false /\
   cached s' = None /\ next_oid s' = next_oid s /\
   (e <> MlxUnavailableError -> warnings (trace s') = warnings (trace s))).
Proof.
  split.
  - intros envs. induction envs as [|env envs IH]; intros s Hc Hall.
    + simpl. repeat split; [exact Hc | lia | lia | lia].
    + simpl in Hall. apply andb_prop in Hall as [Hu Hall].
      simpl. rewrite (load_unavailable_step env s Hc Hu).
      match goal with |- context [load_many envs ?s1] => specialize (IH s1 eq_refl Hall) end.
      destruct (load_many envs _) as [rs s'].
      destruct IH as [Hrs [Hc' [Hw [Hp Hg]]]]. subst rs.
      split; [reflexivity|]. split; [exact Hc'|].
      unfold warnings, platform_checks, generate_imports, non_darwin in *.
      simpl in Hw, Hp, Hg. rewrite ?filter_app_length in Hw, Hp, Hg.
      rewrite Hw, Hp, Hg. simpl.
      destruct (String.eqb (lower (system env)) "darwin");
        [destruct (import_module env generate_mod)|];
        cbv [generate_mod utils_mlx_mod] in *; simpl in *; repeat split; lia.
  - intros env s s' e Hc Hu. unfold backend_unavailable in Hu.
    unfold load_mlx_backend, _build_backend, emit. rewrite Hc. simpl.
    destruct (String.eqb (lower (system env)) "darwin"); simpl in Hu |- *;
      [|discriminate].
    destruct (import_module env generate_mod) as [g|e0] eqn:Hg; simpl in Hu |- *;
      [destruct (import_module env utils_mlx_mod) as [u|e0] eqn:Hu'; simpl in Hu |- *|];
      try rewrite Hu; simpl;
      repeat (simpl; match goal with
                     | |- context [match ?x with Ok _ => _ | Err _ => _ end] =>
                       destruct x eqn:?
                     end);
      repeat match goal with H : getattr _ _ = Err _ |- _ =>
               apply getattr_attribute_error in H; subst end;
      simpl;
      try (destruct (is_MlxUnavailableError e0) eqn:Hm);
      intros H; try discriminate H; injection H as <- <-;
      (split; [first [ left; reflexivity
                     | right; left; eexists; split; reflexivity
                     | right; right; do 2 eexists; repeat split ] |]);
      (split; [first [assumption | reflexivity] |]);
      (split; [reflexivity|]); (split; [reflexivity|]);
      intros Hne; simpl;
      first [ unfold warnings; rewrite ?filter_app_length; simpl; lia
            | destruct e0; try discriminate; contradiction ].
Qed.

Lemma load_mlx_backend_unavailable_every_call_witness :
  (let (rs, s') := load_many [env_linux; env_mac_no_mlx; env_linux] s0 in
   rs = repeat (Err MlxUnavailableError) 3 /\
   cached s' = None /\
   warnings (trace s') = warnings (trace s0) + 3 /\
   platform_checks (trace s') = platform_checks (trace s0) + 3 + 2 /\
   generate_imports (trace s') = generate_imports (trace s0) + 1) /\
  (exists s', load_mlx_backend env_mac_broken s0 = (Err RuntimeError, s') /\
   (import_module env_mac_broken generate_mod = Err RuntimeError \/
    (exists g, import_module env_mac_broken generate_mod = Ok g /\
               import_module env_mac_broken utils_mlx_mod = Err RuntimeError) \/
    (exists g u, import_module env_mac_broken generate_mod = Ok g /\
                 import_module env_mac_broken utils_mlx_mod = Ok u /\
                 RuntimeError = AttributeError)) /\
   is_ImportError RuntimeError = false /\
   cached s' = None /\ next_oid s' = next_oid s0 /\
   (RuntimeError <> MlxUnavailableError -> warnings (trace s') = warnings (trace s0))).
Proof.
  split.
  - exact (proj1 load_mlx_backend_unavailable_every_call
             [env_linux; env_mac_no_mlx; env_linux] s0 eq_refl eq_refl).
  - eexists. split; [vm_compute; reflexivity|].
    exact (proj2 load_mlx_backend_unavailable_every_call env_mac_broken s0 _ RuntimeError
             eq_refl eq_refl
             (eq_refl : load_mlx_backend env_mac_broken s0 =
                        (Err RuntimeError, snd (load_mlx_backend env_mac_broken s0)))).
Defined.

End AvailabilityProofs.

Module ProfileProofs.
Import Profile.
Local Open Scope nat_scope.

(** *** Execution lemmas *)

Lemma tef_sleep (body : M unit) (h : exn -> option (M unit)) (ms : nat) (s : St) :
  try_except_finally body h (sleep ms) s =
  match body s with
  | (Raised e, s1) =>
    match h e with
    | Some hh => let (o2, s2) := hh s1 in (o2, step (EvSleep ms) ms s2)
    | None => (Raised e, step (EvSleep ms) ms s1)
    end
  | (o, s1) => (o, step (EvSleep ms) ms s1)
  end.
Proof.
  unfold try_except_finally, sleep.
  destruct (body s) as [[a| |e] s1]; try reflexivity.
Qed.

Lemma while_true_cons {T} (t : T) (ts : list T) (body : T -> M unit) (s : St) :
  while_true (t :: ts) body s =
  match body t s with
  | (Normal _, s1) => while_true ts body s1
  | (Returned, s1) => (Returned, s1)
  | (Raised e, s1) => (Raised e, s1)
  end.
Proof. reflexivity. Qed.

Lemma while_true_app {T} (l1 l2 : list T) (body : T -> M unit) (s : St) :
  while_true (l1 ++ l2) body s =
  match while_true l1 body s with
  | (Normal _, s1) => while_true l2 body s1
  | r => r
  end.
Proof.
  revert s. induction l1 as [|t l1 IH]; intros s; simpl; [reflexivity|].
  unfold bind.     destruct (body t s) as [[a| |e] s1]; [apply IH|reflexivity|reflexivity].
Qed.

Lemma count_app (p : Event -> bool) (l1 l2 : list Event) :
  count p (l1 ++ l2) = count p l1 + count p l2.
Proof. unfold count. rewrite filter_app, length_app. reflexivity. Qed.

Lemma count_step (p : Event -> bool) (ev : Event) (d : nat) (s : St) :
  count p (trace (step ev d s)) = count p (trace s) + (if p ev then 1 else 0).
Proof.
  unfold step. simpl. rewrite count_app. unfold count at 2. simpl.
  destruct (p ev); reflexivity.
Qed.

(** The try block of an iteration fully evaluated on the collaborators'
    answers. *)
Ltac run_tick :=
  repeat (unfold node_tick, mem_tick, node_try, mem_try, get_metrics_async,
            get_memory_profile_m, start_polling_node_metrics,
            start_polling_memory_metrics in *);
  repeat rewrite tef_sleep;
  unfold bind, call, return_, log; simpl.

(** Concrete inputs for the witnesses. *)
Definition host16 : HostMemory := mkHost (16 * 1024 * 1024 * 1024)%Z (8 * 1024 * 1024 * 1024)%Z.

Definition metrics1 : Metrics :=
  mkMetrics 5%Q 1%Q 2%Q (4%Z, 10%Q) 3%Q 0%Q (10%Z, 40%Q) (8%Z, 25%Q) 1%Q 7%Q
            (mkTemp 50%Q 45%Q)
            "2026-10-14T00:00:00".

Definition psutil_linux : Psutil :=
  mkPsutil 12%Q (Some 8%Z) (Ok [("coretemp", [Some 40%Q; Some 50%Q; None])]).

Definition ok_call {A} (d : nat) (a : A) : Call A := mkCall d (Ok a).

Definition tick_ok : NodeTick :=
  mkNodeTick (ok_call 5 (Some metrics1)) psutil_linux 3
             (ok_call 1 ["en0"]) (ok_call 2 ("Mac16,10", "Apple M4"))
             (ok_call 2 "studio") None (Ok host16) (ok_call 1 tt).

Definition tick_absent : NodeTick :=
  mkNodeTick (ok_call 5 None) psutil_linux 3
             (ok_call 1 ["en0"]) (ok_call 2 ("Mac16,10", "Apple M4"))
             (ok_call 2 "studio") None (Ok host16) (ok_call 1 tt).

Definition st0 : St := mkSt [] 0.

Lemma node_absent_step (plat : string) (t : NodeTick) (ts : list NodeTick) (s : St) :
  res (sample_result plat t) = Ok None ->
  start_polling_node_metrics plat (t :: ts) s =
    (Returned,
     step (EvSleep node_poll_interval_ms) node_poll_interval_ms
          (step EvSample (dur (sample_result plat t)) s)).
Proof.
  intros Hn. run_tick. rewrite Hn. reflexivity.
Qed.

(** C10: when the metrics source answers None, the iteration's finally
    block still sleeps one full interval before the loop returns; nothing
    else happens on that path. *)
Theorem node_absent_sleeps_then_returns (plat : string) (t : NodeTick)
        (ts : list NodeTick) (s : St) :
  res (sample_result plat t) = Ok None ->
  start_polling_node_metrics plat (t :: ts) s =
    (Returned,
     step (EvSleep node_poll_interval_ms) node_poll_interval_ms
          (step EvSample (dur (sample_result plat t)) s)).
Proof. exact (node_absent_step plat t ts s). Qed.

Lemma node_absent_sleeps_then_returns_witness :
  start_polling_node_metrics "Darwin" [tick_absent; tick_ok] st0 =
    (Returned, mkSt [EvSample; EvSleep 1000] 1005).
Proof.
  apply (node_absent_sleeps_then_returns "Darwin" tick_absent [tick_ok] st0).
  vm_compute. reflexivity.
Defined.

(** C9: in an iteration where every step succeeds, the actions happen in
    the order metrics sample, network interfaces, model and chip, friendly
    name, memory profile, sink (with the assembled node profile), then the
    sleep. *)
Theorem node_tick_order (plat : string) (t : NodeTick) (s : St)
        (m : Metrics) (nets : list string) (mi ci fname : string)
        (p : MemoryPerformanceProfile) :
  res (sample_result plat t) = Ok (Some m) ->
  res (nt_netif t) = Ok nets ->
  res (nt_model_chip t) = Ok (mi, ci) ->
  res (nt_friendly t) = Ok fname ->
  get_memory_profile (nt_env t) (nt_host t) = Ok p ->
  res (nt_sink t) = Ok tt ->
  fst (node_tick plat t s) = Normal tt /\
  trace (snd (node_tick plat t s)) =
    trace s ++
    [EvSample; EvNetIf; EvModelChip; EvFriendly; EvMemProfile;
     EvSinkNode (mkNodeProfile mi ci fname nets p
                   (mkSysProfile (snd (gpu_usage m)) (gpu_temp_avg (temp m))
                      (sys_power m) (snd (pcpu_usage m)) (snd (ecpu_usage m))
                      (ane_power m)));
     EvSleep node_poll_interval_ms].
Proof.
  intros Hm Hn Hmc Hf Hp Hs. run_tick.
  rewrite Hm. simpl. rewrite Hn. simpl. rewrite Hmc. simpl. rewrite Hf. simpl.
  rewrite Hp. simpl. rewrite Hs. simpl.
  split; [reflexivity|]. rewrite <- !app_assoc. reflexivity.
Qed.

Lemma node_tick_order_witness :
  fst (node_tick "Linux" tick_ok st0) = Normal tt /\
  trace (snd (node_tick "Linux" tick_ok st0)) =
    [EvSample; EvNetIf; EvModelChip; EvFriendly; EvMemProfile;
     EvSinkNode (mkNodeProfile "Mac16,10" "Apple M4" "studio" ["en0"]
                   (mkMemProfile (16 * 1024 * 1024 * 1024)%Z (8 * 1024 * 1024 * 1024)%Z)
                   (mkSysProfile 0%Q (90 / 2)%Q 0%Q 12%Q 0%Q 0%Q));
     EvSleep 1000].
Proof.
  apply (node_tick_order "Linux" tick_ok st0
           (mkMetrics 0%Q 0%Q 0%Q (0%Z, 0%Q) 0%Q 0%Q (0%Z, 0%Q) (8%Z, 12%Q) 0%Q 0%Q
                      (mkTemp (90 / 2)%Q (90 / 2)%Q) "")
           ["en0"] "Mac16,10" "Apple M4" "studio"
           (mkMemProfile (16 * 1024 * 1024 * 1024)%Z (8 * 1024 * 1024 * 1024)%Z));
    vm_compute; reflexivity.
Defined.

(** On a memory-loop iteration, the sampler or the sink raises MacMonError
    (and nothing before it raises anything else). *)
Definition mem_faults_macmon (t : MemTick) : bool :=
  match get_memory_profile (mt_env t) (mt_host t) with
  | Err MacMonError => true
  | Err _ => false
  | Ok _ => match res (mt_sink t) with Err MacMonError => true | _ => false end
  end.

Lemma mem_tick_macmon (t : MemTick) (s : St) :
  mem_faults_macmon t = true ->
  exists tr d, mem_tick t s = (Normal tt, mkSt (trace s ++ tr) (clock s + d)) /\
               count is_sleep tr = 1 /\ count is_error_log tr = 1.
Proof.
  unfold mem_faults_macmon. intros H. run_tick.
  destruct (get_memory_profile (mt_env t) (mt_host t)) as [p|e]; simpl.
  - destruct (res (mt_sink t)) as [[]|e]; [discriminate|].
    destruct e; try discriminate. simpl.
    exists [EvMemProfile; EvSinkMem p; EvLog ERROR "Memory Monitor encountered error";
            EvSleep mem_poll_interval_ms], (dur (mt_sink t) + mem_poll_interval_ms).
    unfold step; simpl. rewrite <- !app_assoc. split; [do 2 f_equal; lia|].
    split; reflexivity.
  - destruct e; try discriminate. simpl.
    exists [EvMemProfile; EvLog ERROR "Memory Monitor encountered error";
            EvSleep mem_poll_interval_ms], mem_poll_interval_ms.
    unfold step; simpl. rewrite <- !app_assoc. split; [do 2 f_equal; lia|].
    split; reflexivity.
Qed.

(** C3: under MacMonError from the sampler or the sink on every iteration,
    the memory loop is still running after any number of iterations; each
    iteration logged the fault once and slept once. *)
Theorem memory_loop_survives_macmon (ticks : list MemTick) (s : St) :
  forallb mem_faults_macmon ticks = true ->
  exists s', start_polling_memory_metrics ticks s = (Normal tt, s') /\
    count is_sleep (trace s') = count is_sleep (trace s) + length ticks /\
    count is_error_log (trace s') = count is_error_log (trace s) + length ticks.
Proof.
  unfold start_polling_memory_metrics.
  revert s. induction ticks as [|t ts IH]; intros s Hall.
  - exists s. simpl. repeat split; lia.
  - simpl in Hall. apply andb_prop in Hall as [Ht Hall].
    destruct (mem_tick_macmon t s Ht) as [tr [d [Hs [Hsl Her]]]].
    rewrite while_true_cons, Hs.
    destruct (IH (mkSt (trace s ++ tr) (clock s + d)) Hall) as [s' [Hr [H1 H2]]].
    exists s'. split; [exact Hr|]. simpl in H1, H2. rewrite count_app in H1, H2.
    simpl. lia.
Qed.

Definition mem_tick_macmon_sink : MemTick :=
  mkMemTick None (Ok host16) (mkCall 2 (Err MacMonError)).
Definition mem_tick_macmon_sampler : MemTick :=
  mkMemTick (Some "2048") (Err MacMonError) (ok_call 2 tt).

Lemma memory_loop_survives_macmon_witness :
  exists s', start_polling_memory_metrics
               [mem_tick_macmon_sink; mem_tick_macmon_sampler; mem_tick_macmon_sink] st0
             = (Normal tt, s') /\
    count is_sleep (trace s') = 3 /\ count is_error_log (trace s') = 3.
Proof.
  apply (memory_loop_survives_macmon
           [mem_tick_macmon_sink; mem_tick_macmon_sampler; mem_tick_macmon_sink] st0).
  vm_compute. reflexivity.
Defined.

(** C2 (as stated, fails): a non-integer OVERRIDE_MEMORY_MB makes
    [get_memory_profile] raise ValueError, which the memory loop does not
    catch: the loop ends by raising it after the iteration's sleep. *)
Definition mem_tick_bad_override : MemTick :=
  mkMemTick (Some "abc") (Ok host16) (ok_call 0 tt).

Lemma memory_loop_propagates_value_error :
  start_polling_memory_metrics [mem_tick_bad_override; mem_tick_bad_override] st0 =
    (Raised ValueError, mkSt [EvMemProfile; EvSleep 500] 500).
Proof. vm_compute. reflexivity. Qed.

(** C2 (amended): the memory loop isolates MacMonError and the node loop
    isolates MacMonError and TimeoutError (logged, then the sleep, then the
    next iteration); any other exception of an iteration propagates out of
    the loop after the sleep. *)
Theorem poll_loops_isolate_listed_faults :
  (forall (t : MemTick) (ts : list MemTick) (s s1 : St) (e : exn),
     mem_try t s = (Raised e, s1) ->
     start_polling_memory_metrics (t :: ts) s =
       match e with
       | MacMonError =>
         start_polling_memory_metrics ts
           (step (EvSleep mem_poll_interval_ms) mem_poll_interval_ms
              (step (EvLog ERROR "Memory Monitor encountered error") 0 s1))
       | _ => (Raised e, step (EvSleep mem_poll_interval_ms) mem_poll_interval_ms s1)
       end) /\
  (forall (plat : string) (t : NodeTick) (ts : list NodeTick) (s s1 : St) (e : exn),
     node_try plat t s = (Raised e, s1) ->
     start_polling_node_metrics plat (t :: ts) s =
       match e with
       | TimeoutError =>
         start_polling_node_metrics plat ts
           (step (EvSleep node_poll_interval_ms) node_poll_interval_ms
              (step (EvLog WARNING timeout_msg) 0 s1))
       | MacMonError =>
         start_polling_node_metrics plat ts
           (step (EvSleep node_poll_interval_ms) node_poll_interval_ms
              (step (EvLog ERROR "Resource Monitor encountered error") 0 s1))
       | _ => (Raised e, step (EvSleep node_poll_interval_ms) node_poll_interval_ms s1)
       end).
Proof.
  split.
  - intros t ts s s1 e H. unfold start_polling_memory_metrics.
    rewrite while_true_cons. unfold mem_tick. rewrite tef_sleep, H.
    destruct e; reflexivity.
  - intros plat t ts s s1 e H. unfold start_polling_node_metrics.
    rewrite while_true_cons. unfold node_tick. rewrite tef_sleep, H.
    destruct e; reflexivity.
Qed.

Definition node_tick_timeout : NodeTick :=
  mkNodeTick (ok_call 5 (Some metrics1)) psutil_linux 3
             (ok_call 1 ["en0"]) (mkCall 30000 (Err TimeoutError))
             (ok_call 2 "studio") None (Ok host16) (ok_call 1 tt).

Lemma poll_loops_isolate_listed_faults_witness :
  start_polling_memory_metrics [mem_tick_bad_override] st0 =
    (Raised ValueError, mkSt [EvMemProfile; EvSleep 500] 500) /\
  start_polling_node_metrics "Darwin" [node_tick_timeout] st0 =
    (Normal tt, mkSt [EvSample; EvNetIf; EvModelChip; EvLog WARNING timeout_msg;
                      EvSleep 1000] 31006).
Proof.
  split.
  - rewrite (proj1 poll_loops_isolate_listed_faults mem_tick_bad_override [] st0
               (mkSt [EvMemProfile] 0) ValueError); reflexivity.
  - rewrite (proj2 poll_loops_isolate_listed_faults "Darwin" node_tick_timeout [] st0
               (mkSt [EvSample; EvNetIf; EvModelChip] 30006) TimeoutError); reflexivity.
Defined.

(** *** Timing *)

Definition zero_dur {A} (c : Call A) : Call A := mkCall 0 (res c).

(** The same iteration with every collaborator answering instantly. *)
Definition no_durations (t : NodeTick) : NodeTick :=
  mkNodeTick (zero_dur (nt_macmon t)) (nt_psutil t) 0 (zero_dur (nt_netif t))
             (zero_dur (nt_model_chip t)) (zero_dur (nt_friendly t))
             (nt_env t) (nt_host t) (zero_dur (nt_sink t)).

Lemma sample_no_durations (plat : string) (t : NodeTick) :
  res (sample_result plat (no_durations t)) = res (sample_result plat t).
Proof.
  unfold sample_result. destruct (String.eqb (lower plat) "darwin"); reflexivity.
Qed.

Lemma node_tick_outcome_ignores_time (plat : string) (t : NodeTick) (s : St) :
  fst (node_tick plat t s) = fst (node_tick plat (no_durations t) s).
Proof.
  unfold node_tick. rewrite !tef_sleep.
  unfold node_try, get_metrics_async, get_memory_profile_m, bind, call, return_, log.
  rewrite sample_no_durations.
  cbn [no_durations nt_netif nt_model_chip nt_friendly nt_env nt_host nt_sink
       zero_dur res].
  destruct (res (sample_result plat t)) as [[m|]|e]; simpl;
    [|reflexivity|destruct e; reflexivity].
  destruct (res (nt_netif t)) as [n|e]; simpl; [|destruct e; reflexivity].
  destruct (res (nt_model_chip t)) as [[mi ci]|e]; simpl; [|destruct e; reflexivity].
  destruct (res (nt_friendly t)) as [f|e]; simpl; [|destruct e; reflexivity].
  destruct (get_memory_profile (nt_env t) (nt_host t)) as [p|e]; simpl;
    [|destruct e; reflexivity].
  destruct (res (nt_sink t)) as [[]|e]; simpl; [reflexivity|destruct e; reflexivity].
Qed.

(** C1 (as stated, fails): an iteration whose model lookup takes 45 s
    completes normally: no timeout is raised and nothing is logged; the sink
    is called and the loop goes on to sleep. *)
Definition node_tick_slow : NodeTick :=
  mkNodeTick (ok_call 5 (Some metrics1)) psutil_linux 3
             (ok_call 1 ["en0"]) (ok_call 45000 ("Mac16,10", "Apple M4"))
             (ok_call 2 "studio") None (Ok host16) (ok_call 1 tt).

Lemma node_tick_over_30s_not_timed_out :
  fst (node_tick "Darwin" node_tick_slow st0) = Normal tt /\
  Nat.ltb 30000 (clock (snd (node_tick "Darwin" node_tick_slow st0))
                 - node_poll_interval_ms) = true /\
  count is_log (trace (snd (node_tick "Darwin" node_tick_slow st0))) = 0 /\
  count is_node_sink (trace (snd (node_tick "Darwin" node_tick_slow st0))) = 1.
Proof. vm_compute. repeat split. Qed.

(** C1 (amended): the node loop sets no time budget of its own, since an
    iteration ends the same way whatever its steps take; when a step raises
    asyncio.TimeoutError the loop logs the warning, sleeps and goes on to
    the next iteration without propagating it. *)
Theorem node_loop_timeout_logged_no_budget :
  (forall (plat : string) (t : NodeTick) (s : St),
     fst (node_tick plat t s) = fst (node_tick plat (no_durations t) s)) /\
  (forall (plat : string) (t : NodeTick) (ts : list NodeTick) (s s1 : St),
     node_try plat t s = (Raised TimeoutError, s1) ->
     start_polling_node_metrics plat (t :: ts) s =
       start_polling_node_metrics plat ts
         (step (EvSleep node_poll_interval_ms) node_poll_interval_ms
            (step (EvLog WARNING timeout_msg) 0 s1))).
Proof.
  split.
  - exact node_tick_outcome_ignores_time.
  - intros plat t ts s s1 H. unfold start_polling_node_metrics.
    rewrite while_true_cons. unfold node_tick. rewrite tef_sleep, H. reflexivity.
Qed.

Lemma node_loop_timeout_logged_no_budget_witness :
  start_polling_node_metrics "Darwin" [node_tick_timeout] st0 =
    (Normal tt, mkSt [EvSample; EvNetIf; EvModelChip; EvLog WARNING timeout_msg;
                      EvSleep 1000] 31006).
Proof.
  rewrite (proj2 node_loop_timeout_logged_no_budget "Darwin" node_tick_timeout [] st0
             (mkSt [EvSample; EvNetIf; EvModelChip] 30006)); reflexivity.
Defined.

(** *** Sink invocations of the node loop *)

(** The iteration gets as far as calling the sink. *)
Definition tick_reaches_sink (plat : string) (t : NodeTick) : bool :=
  match res (sample_result plat t), res (nt_netif t), res (nt_model_chip t),
        res (nt_friendly t), get_memory_profile (nt_env t) (nt_host t) with
  | Ok (Some _), Ok _, Ok _, Ok _, Ok _ => true
  | _, _, _, _, _ => false
  end.

Lemma node_tick_sinks (plat : string) (t : NodeTick) (s : St) :
  count is_node_sink (trace (snd (node_tick plat t s))) =
  count is_node_sink (trace s) + (if tick_reaches_sink plat t then 1 else 0).
Proof.
  unfold tick_reaches_sink. run_tick.
  destruct (res (sample_result plat t)) as [[m|]|e]; simpl;
    [|rewrite !count_app; unfold count; simpl; lia|destruct e; simpl; rewrite !count_app; unfold count; simpl; lia].
  destruct (res (nt_netif t)) as [n|e]; simpl;
    [|destruct e; simpl; rewrite !count_app; unfold count; simpl; lia].
  destruct (res (nt_model_chip t)) as [[mi ci]|e]; simpl;
    [|destruct e; simpl; rewrite !count_app; unfold count; simpl; lia].
  destruct (res (nt_friendly t)) as [f|e]; simpl;
    [|destruct e; simpl; rewrite !count_app; unfold count; simpl; lia].
  destruct (get_memory_profile (nt_env t) (nt_host t)) as [p|e]; simpl;
    [|destruct e; simpl; rewrite !count_app; unfold count; simpl; lia].
  destruct (res (nt_sink t)) as [[]|e]; simpl;
    [|destruct e; simpl]; rewrite !count_app; unfold count; simpl; lia.
Qed.

Lemma node_loop_sinks (plat : string) (pre : list NodeTick) (s s1 : St) :
  start_polling_node_metrics plat pre s = (Normal tt, s1) ->
  count is_node_sink (trace s1) =
  count is_node_sink (trace s) + length (filter (tick_reaches_sink plat) pre).
Proof.
  unfold start_polling_node_metrics. revert s.
  induction pre as [|t pre IH]; intros s H.
  - simpl in H. inversion H; subst. simpl. lia.
  - rewrite while_true_cons in H.
    pose proof (node_tick_sinks plat t s) as Hc.
    destruct (node_tick plat t s) as [[[]| |e] s2]; try discriminate.
    rewrite (IH s2 H). simpl in Hc. rewrite Hc. simpl.
    destruct (tick_reaches_sink plat t); simpl; lia.
Qed.

(** A failing sampler, lookup or memory read keeps the iteration from
    calling the sink. *)
Lemma node_tick_fault_no_sink (plat : string) (t : NodeTick) (e : exn) :
  (res (sample_result plat t) = Err e \/ res (nt_netif t) = Err e \/
   res (nt_model_chip t) = Err e \/ res (nt_friendly t) = Err e \/
   get_memory_profile (nt_env t) (nt_host t) = Err e) ->
  tick_reaches_sink plat t = false.
Proof.
  intros H. unfold tick_reaches_sink.
  destruct H as [H|[H|[H|[H|H]]]]; rewrite H;
    destruct (res (sample_result plat t)) as [[]|]; try reflexivity;
    destruct (res (nt_netif t)); try reflexivity;
    destruct (res (nt_model_chip t)); try reflexivity;
    destruct (res (nt_friendly t)); try reflexivity;
    destruct (get_memory_profile (nt_env t) (nt_host t)); reflexivity.
Qed.

(** C4 (as stated, fails): on macOS, MacMonError on iteration 1 and None on
    iteration 2: the loop returns after 0 sink calls, not 1. *)
Definition node_tick_macmon_fault : NodeTick :=
  mkNodeTick (mkCall 5 (Err MacMonError)) psutil_linux 3
             (ok_call 1 ["en0"]) (ok_call 2 ("Mac16,10", "Apple M4"))
             (ok_call 2 "studio") None (Ok host16) (ok_call 1 tt).

Lemma node_loop_absent_fewer_sinks :
  fst (start_polling_node_metrics "Darwin" [node_tick_macmon_fault; tick_absent] st0)
    = Returned /\
  count is_node_sink
    (trace (snd (start_polling_node_metrics "Darwin"
                   [node_tick_macmon_fault; tick_absent] st0))) = 0.
Proof. vm_compute. split; reflexivity. Qed.

(** C4 (amended): when the first None arrives on iteration K (after K-1
    iterations that did not end the loop), the loop returns without raising
    and without logging on that path; the sink was called at most K-1
    times, exactly K-1 when each earlier iteration got as far as the
    sink. More precisely, it was called once per earlier iteration that got
    as far as the sink, and an iteration whose sampler, lookups or memory
    read raised (MacMonError, TimeoutError or any other exception) got no
    sink call. *)
Theorem node_loop_absent_returns_silently (plat : string) (pre : list NodeTick)
        (t : NodeTick) (post : list NodeTick) (s s1 : St) :
  start_polling_node_metrics plat pre s = (Normal tt, s1) ->
  res (sample_result plat t) = Ok None ->
  start_polling_node_metrics plat (pre ++ t :: post) s =
    (Returned,
     step (EvSleep node_poll_interval_ms) node_poll_interval_ms
          (step EvSample (dur (sample_result plat t)) s1)) /\
  count is_node_sink (trace s1) <= count is_node_sink (trace s) + length pre /\
  (forallb (tick_reaches_sink plat) pre = true ->
   count is_node_sink (trace s1) = count is_node_sink (trace s) + length pre) /\
  count is_node_sink (trace s1) =
    count is_node_sink (trace s) + length (filter (tick_reaches_sink plat) pre) /\
  (forall (t' : NodeTick) (e : exn) (s' : St), In t' pre ->
   (res (sample_result plat t') = Err e \/ res (nt_netif t') = Err e \/
    res (nt_model_chip t') = Err e \/ res (nt_friendly t') = Err e \/
    get_memory_profile (nt_env t') (nt_host t') = Err e) ->
   count is_node_sink (trace (snd (node_tick plat t' s'))) = count is_node_sink (trace s')).
Proof.
  intros Hpre Hn. split; [|split; [|split; [|split]]].
  - unfold start_polling_node_metrics in *. rewrite while_true_app, Hpre.
    exact (node_absent_step plat t post s1 Hn).
  - rewrite (node_loop_sinks plat pre s s1 Hpre).
    pose proof (filter_length_le (tick_reaches_sink plat) pre). lia.
  - intros Hall. rewrite (node_loop_sinks plat pre s s1 Hpre).
    rewrite forallb_filter_id by exact Hall. reflexivity.
  - exact (node_loop_sinks plat pre s s1 Hpre).
  - intros t' e s' _ He. rewrite (node_tick_sinks plat t' s').
    rewrite (node_tick_fault_no_sink plat t' e He). lia.
Qed.

Definition pre_fault_ok : list NodeTick := [node_tick_macmon_fault; tick_ok].

Definition s_after_ok : St := snd (start_polling_node_metrics "Darwin" pre_fault_ok st0).

Lemma node_loop_absent_returns_silently_witness :
  start_polling_node_metrics "Darwin" pre_fault_ok st0 = (Normal tt, s_after_ok) /\
  res (sample_result "Darwin" tick_absent) = Ok None /\
  (start_polling_node_metrics "Darwin" (pre_fault_ok ++ tick_absent :: [tick_ok]) st0 =
     (Returned,
      step (EvSleep node_poll_interval_ms) node_poll_interval_ms
           (step EvSample (dur (sample_result "Darwin" tick_absent)) s_after_ok)) /\
   count is_node_sink (trace s_after_ok) <= count is_node_sink (trace st0) + 2 /\
   (forallb (tick_reaches_sink "Darwin") pre_fault_ok = true ->
    count is_node_sink (trace s_after_ok) = count is_node_sink (trace st0) + 2) /\
   count is_node_sink (trace s_after_ok) = count is_node_sink (trace st0) + 1 /\
   (forall (t' : NodeTick) (e : exn) (s' : St), In t' pre_fault_ok ->
    (res (sample_result "Darwin" t') = Err e \/ res (nt_netif t') = Err e \/
     res (nt_model_chip t') = Err e \/ res (nt_friendly t') = Err e \/
     get_memory_profile (nt_env t') (nt_host t') = Err e) ->
    count is_node_sink (trace (snd (node_tick "Darwin" t' s'))) =
      count is_node_sink (trace s'))).
Proof.
  split; [vm_compute; reflexivity|]. split; [reflexivity|].
  exact (node_loop_absent_returns_silently "Darwin" pre_fault_ok tick_absent [tick_ok]
           st0 s_after_ok (ltac:(vm_compute; reflexivity)) eq_refl).
Defined.

(** *** Generic fallback sampler *)

(** psutil defines [sensors_temperatures] only on platforms that support
    it (Linux, FreeBSD); elsewhere, e.g. on Windows, the attribute lookup
    [psutil.sensors_temperatures] raises AttributeError. *)
Definition psutil_windows : Psutil := mkPsutil 7%Q (Some 4%Z) (Err AttributeError).

Definition tick_windows : NodeTick :=
  mkNodeTick (ok_call 5 (Some metrics1)) psutil_windows 3
             (ok_call 1 ["Ethernet"]) (ok_call 2 ("PC", "x86_64"))
             (ok_call 2 "desktop") None (Ok host16) (ok_call 1 tt).

(** C7: on a non-macOS host whose psutil has no temperature API, the
    fallback sampler raises AttributeError instead of returning Metrics with
    zero temperatures, and the node loop ends by raising it. *)
Theorem generic_sampler_raises_without_sensor_api :
  _collect_generic_metrics psutil_windows = Err AttributeError /\
  start_polling_node_metrics "Windows" [tick_windows; tick_windows] st0 =
    (Raised AttributeError, mkSt [EvSample; EvSleep 1000] 1003).
Proof. split; vm_compute; reflexivity. Qed.

(** *** Memory override *)

Lemma py_int_empty : py_int "" = Err ValueError.
Proof. reflexivity. Qed.

(** C8: when OVERRIDE_MEMORY_MB holds an integer [n] at an iteration, the
    profile built on that iteration, by either loop, reports
    [Memory.from_mb(n)] bytes as its total, whatever the host total. *)
Theorem memory_override_replaces_total (ov : string) (n : Z) (h : HostMemory) :
  py_int ov = Ok n ->
  get_memory_profile (Some ov) (Ok h) =
    Ok (mkMemProfile (Memory_from_mb_in_bytes n) (host_available h)) /\
  (forall (t : MemTick) (s : St),
     mt_env t = Some ov -> mt_host t = Ok h ->
     In (EvSinkMem (mkMemProfile (Memory_from_mb_in_bytes n) (host_available h)))
        (trace (snd (mem_tick t s)))) /\
  (forall (plat : string) (t : NodeTick) (s : St),
     nt_env t = Some ov -> nt_host t = Ok h -> tick_reaches_sink plat t = true ->
     exists p, In (EvSinkNode p) (trace (snd (node_tick plat t s))) /\
               memory p = mkMemProfile (Memory_from_mb_in_bytes n) (host_available h)).
Proof.
  intros Hn.
  assert (Hg : get_memory_profile (Some ov) (Ok h) =
               Ok (mkMemProfile (Memory_from_mb_in_bytes n) (host_available h))).
  { unfold get_memory_profile.
    destruct (String.eqb ov "") eqn:E.
    - apply String.eqb_eq in E. subst ov. rewrite py_int_empty in Hn. discriminate.
    - rewrite Hn. reflexivity. }
  split; [exact Hg|]. split.
  - intros t s He Hh. run_tick. rewrite He, Hh, Hg. simpl.
    destruct (res (mt_sink t)) as [[]|e]; simpl; [|destruct e; simpl];
      rewrite ?in_app_iff; simpl; auto 20.
  - intros plat t s He Hh Hr. unfold tick_reaches_sink in Hr.
    rewrite He, Hh, Hg in Hr.
    destruct (res (sample_result plat t)) as [[m|]|e] eqn:Hm; try discriminate.
    destruct (res (nt_netif t)) as [nets|e] eqn:Hni; try discriminate.
    destruct (res (nt_model_chip t)) as [[mi ci]|e] eqn:Hmc; try discriminate.
    destruct (res (nt_friendly t)) as [f|e] eqn:Hf; try discriminate.
    exists (mkNodeProfile mi ci f nets
              (mkMemProfile (Memory_from_mb_in_bytes n) (host_available h))
              (mkSysProfile (snd (gpu_usage m)) (gpu_temp_avg (temp m))
                 (sys_power m) (snd (pcpu_usage m)) (snd (ecpu_usage m))
                 (ane_power m))).
    split; [|reflexivity].
    run_tick. rewrite Hm. simpl. rewrite Hni. simpl. rewrite Hmc. simpl. rewrite Hf.
    simpl. rewrite He, Hh, Hg. simpl.
    destruct (res (nt_sink t)) as [[]|e]; simpl; [|destruct e; simpl];
      rewrite ?in_app_iff; simpl; auto 20.
Qed.

Definition mem_tick_override : MemTick := mkMemTick (Some "4096") (Ok host16) (ok_call 1 tt).

Definition node_tick_override : NodeTick :=
  mkNodeTick (ok_call 5 (Some metrics1)) psutil_linux 3
             (ok_call 1 ["en0"]) (ok_call 2 ("Mac16,10", "Apple M4"))
             (ok_call 2 "studio") (Some "4096") (Ok host16) (ok_call 1 tt).

Lemma memory_override_replaces_total_witness :
  py_int "4096" = Ok 4096%Z /\
  get_memory_profile (Some "4096") (Ok host16) =
    Ok (mkMemProfile (Memory_from_mb_in_bytes 4096) (host_available host16)) /\
  In (EvSinkMem (mkMemProfile (Memory_from_mb_in_bytes 4096) (host_available host16)))
     (trace (snd (mem_tick mem_tick_override st0))) /\
  (exists p, In (EvSinkNode p) (trace (snd (node_tick "Darwin" node_tick_override st0))) /\
             memory p = mkMemProfile (Memory_from_mb_in_bytes 4096) (host_available host16)).
Proof.
  assert (Hp : py_int "4096" = Ok 4096%Z) by reflexivity.
  destruct (memory_override_replaces_total "4096" 4096%Z host16 Hp) as [H1 [H2 H3]].
  split; [exact Hp|]. split; [exact H1|]. split.
  - apply H2; reflexivity.
  - apply H3; reflexivity.
Defined.

End ProfileProofs.

(** * Further properties of profile.py and availability.py *)

Module ProfileFacts.
Import Profile ProfileProofs.
Local Open Scope nat_scope.

(** *** [get_memory_profile]: reading OVERRIDE_MEMORY_MB *)














(** *** [_collect_generic_metrics] *)

(** The readings that carry a current value, group after group. *)
Definition present_readings (temps : list (string * list Reading)) : list Q :=
  concat (map (fun g => concat (map (fun r => match r with Some v => [v] | None => [] end)
                                      (snd g))) temps).

(** Arithmetic mean of the present readings, 0 when there are none or the
    sensor query fails. *)
Definition sensor_mean (ps : Psutil) : Q :=
  match sensors_temperatures ps with
  | Ok temps =>
    let vs := present_readings temps in
    if Nat.eqb (length vs) 0 then 0%Q
    else (fold_right Qplus 0 vs / inject_Z (Z.of_nat (length vs)))%Q
  | Err _ => 0%Q
  end.

Lemma fold_left_Qplus (xs : list Q) (a : Q) :
  (fold_left Qplus xs a == a + fold_right Qplus 0 xs)%Q.
Proof.
  revert a. induction xs as [|x xs IH]; intros a; simpl.
  - ring.
  - rewrite IH. ring.
Qed.

Lemma present_readings_flat (temps : list (string * list Reading)) :
  present_readings temps =
  flat_map (fun '(_, readings) =>
              flat_map (fun r => match r with Some v => [v] | None => [] end) readings) temps.
Proof.
  unfold present_readings. induction temps as [|[k rs] temps IH]; simpl; [reflexivity|].
  rewrite IH, <- flat_map_concat_map. reflexivity.
Qed.

Lemma collect_generic_shape (ps : Psutil) :
  (forall e, sensors_temperatures ps = Err e -> e = NotImplementedError \/ e = PsutilError) ->
  exists avg,
    _collect_generic_metrics ps =
      Ok (mkMetrics 0 0 0 (0%Z, 0%Q) 0 0 (0%Z, 0%Q)
                    (match cpu_count ps with Some n => n | None => 0%Z end, cpu_percent ps)
                    0 0 (mkTemp avg avg) "") /\
    (avg == sensor_mean ps)%Q.
Proof.
  intros He. unfold _collect_generic_metrics, sensor_mean.
  assert (Hc : (match cpu_count ps with Some n => if Z.eqb n 0 then 0%Z else n
                                      | None => 0%Z end)
               = match cpu_count ps with Some n => n | None => 0%Z end).
  { destruct (cpu_count ps) as [n|]; [|reflexivity].
    destruct (Z.eqb n 0) eqn:E; [apply Z.eqb_eq in E; subst; reflexivity | reflexivity]. }
  destruct (sensors_temperatures ps) as [temps|e].
  - rewrite Hc. eexists; split; [reflexivity|].
    rewrite present_readings_flat.
    destruct (flat_map (fun '(_, readings) =>
               flat_map (fun r => match r with Some v => [v] | None => [] end) readings) temps)
      as [|x xs]; simpl; [reflexivity|].
    unfold py_sum. rewrite (fold_left_Qplus (x :: xs) 0), Qplus_0_l. reflexivity.
  - destruct (He e eq_refl) as [-> | ->]; rewrite Hc; eexists; split; reflexivity.
Qed.

(** Off macOS, when the sensor query returns readings or raises
    NotImplementedError or psutil.Error, the fallback sample has every power
    field and the e-cpu and gpu usage at zero, pcpu_usage = (logical CPU count
    or 0, cpu_percent), an empty timestamp, and both temperatures equal to
    the mean of the readings that carry a value. *)
Theorem generic_metrics_fields (ps : Psutil) :
  (forall e, sensors_temperatures ps = Err e -> e = NotImplementedError \/ e = PsutilError) ->
  exists avg,
    _collect_generic_metrics ps =
      Ok (mkMetrics 0 0 0 (0%Z, 0%Q) 0 0 (0%Z, 0%Q)
                    (match cpu_count ps with Some n => n | None => 0%Z end, cpu_percent ps)
                    0 0 (mkTemp avg avg) "") /\
    (avg == sensor_mean ps)%Q.
Proof. exact (collect_generic_shape ps). Qed.

Lemma generic_metrics_fields_witness :
  exists avg,
    _collect_generic_metrics psutil_linux =
      Ok (mkMetrics 0 0 0 (0%Z, 0%Q) 0 0 (0%Z, 0%Q) (8%Z, 12%Q) 0 0 (mkTemp avg avg) "") /\
    (avg == 45)%Q.
Proof.
  destruct (generic_metrics_fields psutil_linux) as [avg [H1 H2]].
  - intros e H. discriminate.
  - exists avg. split; [exact H1|]. rewrite H2. vm_compute. reflexivity.
Defined.

(** *** Per-iteration facts of the two loops *)

Definition is_sample (ev : Event) : bool :=
  match ev with EvSample => true | _ => false end.
Definition is_mem_read (ev : Event) : bool :=
  match ev with EvMemProfile => true | _ => false end.
Definition is_mem_sink (ev : Event) : bool :=
  match ev with EvSinkMem _ => true | _ => false end.

Definition is_ok {A} (r : Result A) : bool :=
  match r with Ok _ => true | Err _ => false end.

(** Case analysis on every answer an iteration consumes. *)
Ltac dres :=
  repeat (simpl; match goal with
                 | |- context [match res ?c with _ => _ end] => destruct (res c)
                 | |- context [match get_memory_profile ?a ?b with _ => _ end] =>
                   destruct (get_memory_profile a b)
                 | a : unit |- _ => destruct a
                 | |- context [node_handlers _] => unfold node_handlers
                 | |- context [mem_handlers _] => unfold mem_handlers
                 | |- context [match ?x with _ => _ end] => is_var x; destruct x
                 end).

Ltac count_tac :=
  simpl; rewrite ?count_app; unfold count; simpl; rewrite ?filter_app, ?length_app; simpl; lia.

Lemma node_tick_counts (plat : string) (t : NodeTick) (s : St) :
  count is_sleep (trace (snd (node_tick plat t s))) = count is_sleep (trace s) + 1 /\
  count is_sample (trace (snd (node_tick plat t s))) = count is_sample (trace s) + 1.
Proof. run_tick. dres; split; count_tac. Qed.

Lemma node_tick_returned (plat : string) (t : NodeTick) (s : St) :
  fst (node_tick plat t s) = Returned -> res (sample_result plat t) = Ok None.
Proof. run_tick. dres; intros H; first [reflexivity | discriminate]. Qed.

Lemma node_tick_raised (plat : string) (t : NodeTick) (s : St) (e : exn) :
  fst (node_tick plat t s) = Raised e -> e <> MacMonError /\ e <> TimeoutError.
Proof. run_tick. dres; intros H; try discriminate; injection H as <-; split; discriminate. Qed.

Lemma mem_tick_counts (t : MemTick) (s : St) :
  count is_sleep (trace (snd (mem_tick t s))) = count is_sleep (trace s) + 1 /\
  count is_mem_read (trace (snd (mem_tick t s))) = count is_mem_read (trace s) + 1 /\
  count is_mem_sink (trace (snd (mem_tick t s))) =
    count is_mem_sink (trace s) +
    (if is_ok (get_memory_profile (mt_env t) (mt_host t)) then 1 else 0) /\
  clock s + mem_poll_interval_ms <= clock (snd (mem_tick t s)).
Proof. run_tick. dres; repeat split; try count_tac; lia. Qed.

Lemma mem_tick_outcome (t : MemTick) (s : St) :
  fst (mem_tick t s) = Normal tt \/
  exists e, fst (mem_tick t s) = Raised e /\ e <> MacMonError.
Proof.
  run_tick. dres; first [left; reflexivity | right; eexists; split; [reflexivity | discriminate]].
Qed.

Lemma collect_ok_fields (ps : Psutil) (m : Metrics) :
  _collect_generic_metrics ps = Ok m ->
  exists avg,
    m = mkMetrics 0 0 0 (0%Z, 0%Q) 0 0 (0%Z, 0%Q)
                  (match cpu_count ps with Some n => n | None => 0%Z end, cpu_percent ps)
                  0 0 (mkTemp avg avg) "" /\
    (avg == sensor_mean ps)%Q.
Proof.
  intros Hm. destruct (collect_generic_shape ps) as [avg [H1 H2]].
  - intros e He. unfold _collect_generic_metrics in Hm. rewrite He in Hm.
    destruct e; try discriminate; auto.
  - exists avg. rewrite H1 in Hm. injection Hm as <-. split; [reflexivity | exact H2].
Qed.

(** *** The loops *)

(** The memory loop never returns: after any number of iterations it is
    still running, or it raised an exception other than MacMonError. *)
Theorem memory_loop_never_returns (ts : list MemTick) (s : St) :
  fst (start_polling_memory_metrics ts s) = Normal tt \/
  exists e, fst (start_polling_memory_metrics ts s) = Raised e /\ e <> MacMonError.
Proof.
  unfold start_polling_memory_metrics. revert s.
  induction ts as [|t ts IH]; intros s; [left; reflexivity|].
  rewrite while_true_cons. pose proof (mem_tick_outcome t s) as Ho.
  destruct (mem_tick t s) as [o s1]. simpl in Ho.
  destruct Ho as [-> | [e [-> He]]]; [apply IH | right; exists e; auto].
Qed.

(** An exception that ends the node loop is never MacMonError or
    TimeoutError. *)
Theorem node_loop_escaping_exceptions (plat : string) (ts : list NodeTick) (s : St)
        (e : exn) :
  fst (start_polling_node_metrics plat ts s) = Raised e ->
  e <> MacMonError /\ e <> TimeoutError.
Proof.
  unfold start_polling_node_metrics. revert s.
  induction ts as [|t ts IH]; intros s H; [discriminate|].
  rewrite while_true_cons in H. pose proof (node_tick_raised plat t s) as Hr.
  destruct (node_tick plat t s) as [[[]| |e'] s1]; simpl in Hr.
  - exact (IH s1 H).
  - discriminate.
  - injection H as <-. apply Hr. reflexivity.
Qed.

Definition node_tick_value_error : NodeTick :=
  mkNodeTick (ok_call 5 (Some metrics1)) psutil_linux 3
             (ok_call 1 ["en0"]) (ok_call 2 ("Mac16,10", "Apple M4"))
             (ok_call 2 "studio") (Some "abc") (Ok host16) (ok_call 1 tt).

Lemma node_loop_escaping_exceptions_witness :
  fst (start_polling_node_metrics "Darwin" [node_tick_value_error] st0) = Raised ValueError /\
  ValueError <> MacMonError /\ ValueError <> TimeoutError.
Proof.
  assert (H : fst (start_polling_node_metrics "Darwin" [node_tick_value_error] st0)
              = Raised ValueError) by (vm_compute; reflexivity).
  split; [exact H|]. exact (node_loop_escaping_exceptions "Darwin" _ st0 ValueError H).
Defined.

Lemma node_loop_returned (plat : string) (ts : list NodeTick) (s : St) :
  fst (start_polling_node_metrics plat ts s) = Returned ->
  exists pre t post, ts = pre ++ t :: post /\ res (sample_result plat t) = Ok None /\
                     fst (start_polling_node_metrics plat pre s) = Normal tt.
Proof.
  unfold start_polling_node_metrics. revert s.
  induction ts as [|t ts IH]; intros s H; [discriminate|].
  rewrite while_true_cons in H. pose proof (node_tick_returned plat t s) as Hr.
  destruct (node_tick plat t s) as [[[]| |e] s1] eqn:E; simpl in Hr.
  - destruct (IH s1 H) as [pre [t' [post [Hts [Hn Hp]]]]].
    exists (t :: pre), t', post. split; [subst; reflexivity|]. split; [exact Hn|].
    rewrite while_true_cons, E. exact Hp.
  - exists [], t, ts. split; [reflexivity|]. split; [apply Hr; reflexivity|]. reflexivity.
  - discriminate.
Qed.

(** The node loop returns only through a None sample: the iteration that
    returned sampled None, every earlier one ended without returning or
    raising. *)
Theorem node_loop_returns_only_on_absent (plat : string) (ts : list NodeTick) (s : St) :
  fst (start_polling_node_metrics plat ts s) = Returned ->
  exists pre t post, ts = pre ++ t :: post /\ res (sample_result plat t) = Ok None /\
                     fst (start_polling_node_metrics plat pre s) = Normal tt.
Proof. exact (node_loop_returned plat ts s). Qed.

Lemma node_loop_returns_only_on_absent_witness :
  exists pre t post, [tick_ok; tick_absent; tick_ok] = pre ++ t :: post /\
                     res (sample_result "Darwin" t) = Ok None /\
                     fst (start_polling_node_metrics "Darwin" pre st0) = Normal tt.
Proof.
  apply (node_loop_returns_only_on_absent "Darwin" [tick_ok; tick_absent; tick_ok] st0).
  vm_compute. reflexivity.
Defined.

Lemma generic_sample_never_absent (plat : string) (t : NodeTick) :
  String.eqb (lower plat) "darwin" = false -> res (sample_result plat t) <> Ok None.
Proof.
  intros Hp. unfold sample_result. rewrite Hp. simpl.
  destruct (_collect_generic_metrics (nt_psutil t)); discriminate.
Qed.

(** Off macOS the node loop never returns: it keeps running or raises. *)
Theorem node_loop_generic_never_returns (plat : string) (ts : list NodeTick) (s : St) :
  String.eqb (lower plat) "darwin" = false ->
  fst (start_polling_node_metrics plat ts s) <> Returned.
Proof.
  intros Hp Hr. destruct (node_loop_returned plat ts s Hr) as [pre [t [post [_ [Hn _]]]]].
  exact (generic_sample_never_absent plat t Hp Hn).
Qed.

Lemma node_loop_generic_never_returns_witness :
  fst (start_polling_node_metrics "Linux" [tick_absent; tick_absent] st0) <> Returned.
Proof. apply node_loop_generic_never_returns. reflexivity. Defined.

Section Iterations.
Variable T : Type.
Variable tick : T -> M unit.
Variable p : Event -> bool.
Hypothesis tick_counts_once : forall t s, count p (trace (snd (tick t s))) = count p (trace s) + 1.

Lemma while_true_counts (ts : list T) (s : St) :
  (fst (while_true ts tick s) = Normal tt ->
   count p (trace (snd (while_true ts tick s))) = count p (trace s) + length ts) /\
  (fst (while_true ts tick s) <> Normal tt ->
   exists pre t post, ts = pre ++ t :: post /\
     fst (while_true pre tick s) = Normal tt /\
     fst (tick t (snd (while_true pre tick s))) = fst (while_true ts tick s) /\
     count p (trace (snd (while_true ts tick s))) = count p (trace s) + S (length pre)).
Proof.
  revert s. induction ts as [|t ts IH]; intros s.
  - simpl. split; [intros _; lia | intros H; exfalso; apply H; reflexivity].
  - rewrite while_true_cons. pose proof (tick_counts_once t s) as Ht.
    destruct (tick t s) as [o s1] eqn:E. simpl in Ht.
    destruct o as [[]| |e].
    + destruct (IH s1) as [IH1 IH2]. split.
      * intros H. rewrite (IH1 H). simpl. lia.
      * intros H. destruct (IH2 H) as [pre [t' [post [Hts [Hn [Ho Hc]]]]]].
        exists (t :: pre), t', post.
        split; [subst; reflexivity|].
        rewrite while_true_cons, E. split; [exact Hn|]. split; [exact Ho|].
        rewrite Hc. simpl. lia.
    + split; [discriminate|]. intros _. exists [], t, ts.
      split; [reflexivity|]. simpl. rewrite E. repeat split. lia.
    + split; [discriminate|]. intros _. exists [], t, ts.
      split; [reflexivity|]. simpl. rewrite E. repeat split. lia.
Qed.
End Iterations.

(** A loop over its inputs counts one event of kind [p] per iteration it
    started: all of them when it is still running; otherwise the inputs
    before the iteration that ended it, plus that one. *)
Definition counts_once_per_iteration {T} (loop : list T -> M unit) (tick : T -> M unit)
           (p : Event -> bool) : Prop :=
  forall ts s,
    (fst (loop ts s) = Normal tt ->
     count p (trace (snd (loop ts s))) = count p (trace s) + length ts) /\
    (fst (loop ts s) <> Normal tt ->
     exists pre t post, ts = pre ++ t :: post /\
       fst (loop pre s) = Normal tt /\
       fst (tick t (snd (loop pre s))) = fst (loop ts s) /\
       count p (trace (snd (loop ts s))) = count p (trace s) + S (length pre)).

(** Every iteration either loop starts samples once (the metrics sample
    for the node loop, the memory read for the memory loop) and sleeps
    once, including the iteration that returns or raises: when the loop
    ends at the iteration after [pre], it slept and sampled [length pre + 1]
    times, and that iteration's outcome is the loop's. *)
Theorem loops_sleep_once_per_iteration (plat : string) :
  counts_once_per_iteration (start_polling_node_metrics plat) (node_tick plat) is_sleep /\
  counts_once_per_iteration (start_polling_node_metrics plat) (node_tick plat) is_sample /\
  counts_once_per_iteration start_polling_memory_metrics mem_tick is_sleep /\
  counts_once_per_iteration start_polling_memory_metrics mem_tick is_mem_read.
Proof.
  unfold counts_once_per_iteration, start_polling_node_metrics, start_polling_memory_metrics.
  split; [|split; [|split]]; intros ts s.
  - exact (while_true_counts _ (node_tick plat) is_sleep
             (fun t s => proj1 (node_tick_counts plat t s)) ts s).
  - exact (while_true_counts _ (node_tick plat) is_sample
             (fun t s => proj2 (node_tick_counts plat t s)) ts s).
  - exact (while_true_counts _ mem_tick is_sleep
             (fun t s => proj1 (mem_tick_counts t s)) ts s).
  - exact (while_true_counts _ mem_tick is_mem_read
             (fun t s => proj1 (proj2 (mem_tick_counts t s))) ts s).
Qed.

(** While the memory loop is still running, it has pushed one memory
    profile for each iteration whose profile read succeeded and none for the
    others (a failed read that did not end the loop raised MacMonError). *)
Theorem memory_loop_sinks_per_read (ts : list MemTick) (s : St) :
  fst (start_polling_memory_metrics ts s) = Normal tt ->
  count is_mem_sink (trace (snd (start_polling_memory_metrics ts s))) =
    count is_mem_sink (trace s) +
    length (filter (fun t => is_ok (get_memory_profile (mt_env t) (mt_host t))) ts).
Proof.
  unfold start_polling_memory_metrics. revert s.
  induction ts as [|t ts IH]; intros s Hn; [simpl; lia|].
  rewrite while_true_cons in Hn |- *. pose proof (mem_tick_counts t s) as [_ [_ [H3 _]]].
  destruct (mem_tick t s) as [[[]| |e] s1]; simpl in H3, Hn |- *; try discriminate.
  rewrite (IH s1 Hn), H3. destruct (is_ok _); simpl; lia.
Qed.

Definition mem_tick_ok : MemTick := mkMemTick None (Ok host16) (ok_call 1 tt).

Lemma memory_loop_sinks_per_read_witness :
  let ts := [mem_tick_ok; mem_tick_ok; mem_tick_ok] in
  fst (start_polling_memory_metrics ts st0) = Normal tt /\
  count is_mem_sink (trace (snd (start_polling_memory_metrics ts st0))) =
    count is_mem_sink (trace st0) + 3.
Proof.
  intros ts.
  assert (Hn : fst (start_polling_memory_metrics ts st0) = Normal tt)
    by (vm_compute; reflexivity).
  split; [exact Hn|].
  exact (memory_loop_sinks_per_read ts st0 Hn).
Defined.

(** Off macOS, every node profile an iteration pushes carries a system
    profile with zero power, zero GPU and zero efficiency-core usage, the
    CPU percentage psutil reported, and the sensor mean as its temperature. *)
Theorem generic_node_profile_fields (plat : string) (t : NodeTick) (s : St)
        (p : NodePerformanceProfile) :
  String.eqb (lower plat) "darwin" = false ->
  In (EvSinkNode p) (trace (snd (node_tick plat t s))) ->
  In (EvSinkNode p) (trace s) \/
  (sp_sys_power (system_ p) = 0%Q /\ sp_ane_power (system_ p) = 0%Q /\
   sp_gpu_usage (system_ p) = 0%Q /\ sp_ecpu_usage (system_ p) = 0%Q /\
   sp_pcpu_usage (system_ p) = cpu_percent (nt_psutil t) /\
   (sp_temp (system_ p) == sensor_mean (nt_psutil t))%Q).
Proof.
  intros Hp. run_tick. unfold sample_result. rewrite Hp. simpl.
  destruct (_collect_generic_metrics (nt_psutil t)) as [m|e] eqn:Ec; simpl;
    dres; unfold step; simpl; intros Hin; rewrite ?in_app_iff in Hin; simpl in Hin;
    repeat match goal with H : _ \/ _ |- _ => destruct H as [H|H] end;
    try (left; assumption); try discriminate; try contradiction.
  all: injection Hin as <-; right; simpl.
  all: destruct (collect_ok_fields _ _ Ec) as [avg [-> Havg]]; simpl.
  all: repeat split; exact Havg.
Qed.

Definition linux_node_profile : NodePerformanceProfile :=
  mkNodeProfile "Mac16,10" "Apple M4" "studio" ["en0"]
    (mkMemProfile (16 * 1024 * 1024 * 1024)%Z (8 * 1024 * 1024 * 1024)%Z)
    (mkSysProfile 0%Q (90 # 2)%Q 0%Q 12%Q 0%Q 0%Q).

Lemma generic_node_profile_fields_witness :
  In (EvSinkNode linux_node_profile) (trace (snd (node_tick "Linux" tick_ok st0))) /\
  (In (EvSinkNode linux_node_profile) (trace st0) \/
   (sp_sys_power (system_ linux_node_profile) = 0%Q /\
    sp_ane_power (system_ linux_node_profile) = 0%Q /\
    sp_gpu_usage (system_ linux_node_profile) = 0%Q /\
    sp_ecpu_usage (system_ linux_node_profile) = 0%Q /\
    sp_pcpu_usage (system_ linux_node_profile) = cpu_percent (nt_psutil tick_ok) /\
    (sp_temp (system_ linux_node_profile) == sensor_mean (nt_psutil tick_ok))%Q)).
Proof.
  assert (Hin : In (EvSinkNode linux_node_profile)
                   (trace (snd (node_tick "Linux" tick_ok st0))))
    by (vm_compute; repeat (first [left; reflexivity | right])).
  split; [exact Hin|].
  exact (generic_node_profile_fields "Linux" tick_ok st0 linux_node_profile eq_refl Hin).
Defined.

End ProfileFacts.

(** ** Further properties of the MLX backend loader *)

Module AvailabilityFacts.
Import Availability AvailabilityProofs.
Local Open Scope nat_scope.

Ltac err_branch :=
  repeat (simpl; match goal with
                 | |- context [if ?c then _ else _] => destruct c
                 end);
  intros H; discriminate H.

(** A first successful call happened on macOS with both MLX modules
    imported: the backend bundles exactly the four attributes
    [initialize_mlx] and [mlx_force_oom] of utils_mlx and [mlx_generate] and
    [warmup_inference] of generate, is a fresh object, is cached, and the
    call checked the platform and imported the two modules, logging
    nothing. *)
Theorem load_success_builds_from_modules (env : Env) (s s' : LState) (b : Backend) :
  cached s = None ->
  load_mlx_backend env s = (Ok b, s') ->
  String.eqb (lower (system env)) "darwin" = true /\
  (exists g u, import_module env generate_mod = Ok g /\
               import_module env utils_mlx_mod = Ok u /\
               getattr u "initialize_mlx" = Ok (initialize_mlx b) /\
               getattr u "mlx_force_oom" = Ok (mlx_force_oom b) /\
               getattr g "mlx_generate" = Ok (mlx_generate b) /\
               getattr g "warmup_inference" = Ok (warmup_inference b)) /\
  oid b = next_oid s /\ next_oid s' = S (next_oid s) /\ cached s' = Some b /\
  trace s' = trace s ++ [EvPlatformSystem; EvImport generate_mod; EvImport utils_mlx_mod].
Proof.
  intros Hc. unfold load_mlx_backend, _build_backend, emit. rewrite Hc. simpl.
  destruct (String.eqb (lower (system env)) "darwin") eqn:Hd; simpl;
    [|err_branch].
  destruct (import_module env generate_mod) as [g|e] eqn:Hg;
    [|err_branch].
  destruct (import_module env utils_mlx_mod) as [u|e] eqn:Hu;
    [|err_branch].
  destruct (getattr u "initialize_mlx") as [a|e] eqn:H1;
    [|err_branch].
  destruct (getattr u "mlx_force_oom") as [b'|e] eqn:H2;
    [|err_branch].
  destruct (getattr g "mlx_generate") as [c|e] eqn:H3;
    [|err_branch].
  destruct (getattr g "warmup_inference") as [d|e] eqn:H4;
    [|err_branch].
  intros H. injection H as <- <-. simpl.
  split; [reflexivity|]. split; [exists g, u; auto 7|].
  repeat split. rewrite <- !app_assoc. reflexivity.
Qed.

Lemma load_success_builds_from_modules_witness :
  exists b s', load_mlx_backend env_mac s0 = (Ok b, s') /\
  String.eqb (lower (system env_mac)) "darwin" = true /\
  (exists g u, import_module env_mac generate_mod = Ok g /\
               import_module env_mac utils_mlx_mod = Ok u /\
               getattr u "initialize_mlx" = Ok (initialize_mlx b) /\
               getattr u "mlx_force_oom" = Ok (mlx_force_oom b) /\
               getattr g "mlx_generate" = Ok (mlx_generate b) /\
               getattr g "warmup_inference" = Ok (warmup_inference b)) /\
  oid b = next_oid s0 /\ next_oid s' = S (next_oid s0) /\ cached s' = Some b /\
  trace s' = trace s0 ++ [EvPlatformSystem; EvImport generate_mod; EvImport utils_mlx_mod].
Proof.
  exists (mkBackend 0 21 22 11 12), (mkLState (Some (mkBackend 0 21 22 11 12)) 1
    [EvPlatformSystem; EvImport generate_mod; EvImport utils_mlx_mod]).
  assert (H : load_mlx_backend env_mac s0 =
              (Ok (mkBackend 0 21 22 11 12), mkLState (Some (mkBackend 0 21 22 11 12)) 1
                 [EvPlatformSystem; EvImport generate_mod; EvImport utils_mlx_mod]))
    by (vm_compute; reflexivity).
  split; [exact H|].
  exact (load_success_builds_from_modules env_mac s0 _ _ eq_refl H).
Defined.

Lemma warnings_app (tr1 tr2 : list Event) :
  warnings (tr1 ++ tr2) = warnings tr1 + warnings tr2.
Proof. unfold warnings. apply filter_app_length. Qed.

(** A failed call caches nothing and allocates no object, so the next
    call builds again. An ImportError never escapes (it becomes
    MlxUnavailableError). The call adds exactly one warning when the error
    is MlxUnavailableError and none otherwise. *)
Theorem load_failure_not_cached (env : Env) (s s' : LState) (e : exn) :
  cached s = None ->
  load_mlx_backend env s = (Err e, s') ->
  cached s' = None /\ next_oid s' = next_oid s /\ is_ImportError e = false /\
  warnings (trace s') = warnings (trace s) + (if is_MlxUnavailableError e then 1 else 0).
Proof.
  intros Hc. unfold load_mlx_backend, _build_backend, emit. rewrite Hc. simpl.
  repeat (simpl; match goal with
                 | |- context [if ?c then _ else _] => destruct c eqn:?
                 | |- context [match ?x with Ok _ => _ | Err _ => _ end] => destruct x eqn:?
                 end);
  repeat match goal with H : getattr _ _ = Err _ |- _ => apply getattr_attribute_error in H; subst end;
  simpl in *; try discriminate;
  intros H; try discriminate H; injection H as <- <-; simpl in *;
  rewrite ?warnings_app; simpl;
  repeat match goal with
         | H : is_MlxUnavailableError ?x = _ |- context [is_MlxUnavailableError ?x] => rewrite H
         end;
  unfold warnings; simpl;
  repeat split; try lia; try assumption; try reflexivity; congruence.
Qed.

Lemma load_failure_not_cached_witness :
  (exists s', load_mlx_backend env_mac_broken s0 = (Err RuntimeError, s') /\
     cached s' = None /\ next_oid s' = next_oid s0 /\ is_ImportError RuntimeError = false /\
     warnings (trace s') = warnings (trace s0) + 0) /\
  (exists s', load_mlx_backend env_mac_no_mlx s0 = (Err MlxUnavailableError, s') /\
     cached s' = None /\ next_oid s' = next_oid s0 /\
     is_ImportError MlxUnavailableError = false /\
     warnings (trace s') = warnings (trace s0) + 1).
Proof.
  split.
  - eexists. split; [vm_compute; reflexivity|].
    exact (load_failure_not_cached env_mac_broken s0 _ RuntimeError eq_refl
             (eq_refl : load_mlx_backend env_mac_broken s0 =
                        (Err RuntimeError, snd (load_mlx_backend env_mac_broken s0)))).
  - eexists. split; [vm_compute; reflexivity|].
    exact (load_failure_not_cached env_mac_no_mlx s0 _ MlxUnavailableError eq_refl
             (eq_refl : load_mlx_backend env_mac_no_mlx s0 =
                        (Err MlxUnavailableError, snd (load_mlx_backend env_mac_no_mlx s0)))).
Defined.

End AvailabilityFacts.
